(** * finity-auth-starter backend: role guards and profile routes

    Shallow embedding of [backend/app/core/deps.py] and
    [backend/app/routes/users.py].  The user table is a finite map from
    primary keys to rows; a request handler is a computation over an ORM
    session that may raise an [HTTPException].  The checks of
    [.cursor/diagnostics/run_audit.py] are embedded as functions of the
    settings and of the same table. *)

From stdpp Require Import gmap strings list fin_maps.

Open Scope string_scope.
Open Scope list_scope.
Open Scope nat_scope.

(** ** app.models.user *)

Module models.

(** Modelled from the spec: the enumeration [UserRole] of
    [app/models/user.py] is not among the sources; it is the closed set
    USER, ADMIN.  Its [.value] strings are the ones [run_audit.py] compares
    [user.role.value] with. *)
Inductive UserRole := USER | ADMIN.

#[global] Instance UserRole_eq_dec : EqDecision UserRole.
Proof. solve_decision. Defined.

Definition value (r : UserRole) : string :=
  match r with
  | USER => "user"
  | ADMIN => "admin"
  end.

(** Modelled from the spec: the ORM class [User] of [app/models/user.py] is
    not among the sources; the columns are the ones the handlers and the
    spec's data model name.  Nullable text columns are [option string]. *)
Record User := mkUser {
  id : nat;
  email : option string;
  username : option string;
  full_name : option string;
  hashed_password : option string;
  role : UserRole;
  is_active : bool;
  is_verified : bool
}.

#[global] Instance User_eq_dec : EqDecision User.
Proof. solve_decision. Defined.

(** The three attributes a handler assigns to. *)
Inductive Attr := attr_email | attr_username | attr_full_name.

#[global] Instance Attr_eq_dec : EqDecision Attr.
Proof. solve_decision. Defined.

Definition getattr (a : Attr) (u : User) : option string :=
  match a with
  | attr_email => email u
  | attr_username => username u
  | attr_full_name => full_name u
  end.

Definition setattr (a : Attr) (v : option string) (u : User) : User :=
  match a with
  | attr_email =>
      mkUser (id u) v (username u) (full_name u) (hashed_password u)
             (role u) (is_active u) (is_verified u)
  | attr_username =>
      mkUser (id u) (email u) v (full_name u) (hashed_password u)
             (role u) (is_active u) (is_verified u)
  | attr_full_name =>
      mkUser (id u) (email u) (username u) v (hashed_password u)
             (role u) (is_active u) (is_verified u)
  end.

End models.

(** ** app.schemas.user *)

Module schemas.

(** Modelled from the spec: the request schema [UserUpdate] of
    [app/schemas/user.py] is not among the sources; it is a partial update
    of email, username and full_name.  A field that the request omits and a
    field that the request sets to null both read as [None]. *)
Record UserUpdate := mkUserUpdate {
  email : option string;
  username : option string;
  full_name : option string
}.

(** What a request body says about one field, before it is parsed into a
    [UserUpdate]. *)
Inductive Field := Omitted | Null | Given (s : string).

Definition parse_field (f : Field) : option string :=
  match f with
  | Omitted => None
  | Null => None
  | Given s => Some s
  end.

Definition parse (e u n : Field) : UserUpdate :=
  mkUserUpdate (parse_field e) (parse_field u) (parse_field n).

End schemas.

(** ** fastapi: status codes and HTTPException *)

Module status.
Definition HTTP_204_NO_CONTENT : nat := 204.
Definition HTTP_400_BAD_REQUEST : nat := 400.
Definition HTTP_401_UNAUTHORIZED : nat := 401.
Definition HTTP_403_FORBIDDEN : nat := 403.
End status.

Record HTTPException := mkHTTPException {
  status_code : nat;
  detail : string
}.

#[global] Instance HTTPException_eq_dec : EqDecision HTTPException.
Proof. solve_decision. Defined.

(** Outcome of a Python call: a returned value or a raised exception. *)
Inductive Result (A : Type) :=
| Return (a : A)
| Raise (e : HTTPException).
Arguments Return {A} a.
Arguments Raise {A} e.

(** Python truthiness of an optional string: [None] and the empty string
    are falsy. *)
Definition truthy (o : option string) : bool :=
  match o with
  | Some s => bool_decide (s ≠ "")
  | None => false
  end.

(** ** app.core.deps *)

Module deps.
Import models.

(** [require_role(required_role)] returns the closure [role_checker]; the
    partial application [require_role r] is that closure. *)
Definition require_role (required_role : UserRole) (current_user : User)
  : Result User :=
  if bool_decide (role current_user ≠ required_role) then
    Raise (mkHTTPException status.HTTP_403_FORBIDDEN
             ("Access denied. Required role: " +:+ value required_role))
  else Return current_user.

Definition require_admin (current_user : User) : Result User :=
  if bool_decide (role current_user ≠ ADMIN) then
    Raise (mkHTTPException status.HTTP_403_FORBIDDEN
             "Access denied. Admin role required.")
  else Return current_user.

End deps.

(** ** sqlalchemy.orm: the session a handler receives *)

Module orm.
Import models.

(** What a handler does to its session, in the order it does it. *)
Inductive Event :=
| EvQuery (a : Attr) (v : option string)
| EvSet (a : Attr) (v : option string)
| EvDelete
| EvCommit
| EvRefresh.

#[global] Instance Event_eq_dec : EqDecision Event.
Proof. solve_decision. Defined.

(** [rows] is the committed user table, keyed by primary key;
    [current_user] is the ORM object of the resolved identity, whose
    attribute assignments stay in memory until [commit]; [deleted] says
    whether that object is marked for deletion. *)
Record Session := mkSession {
  rows : gmap nat User;
  current_user : User;
  deleted : bool;
  log : list Event
}.

(** A handler body: it threads the session and may raise.  The session is
    kept when an exception is raised, so that the state the handler leaves
    behind can be inspected. *)
Definition M (A : Type) : Type := Session → Session * Result A.

#[global] Instance M_ret : MRet M := λ A a s, (s, Return a).

#[global] Instance M_bind : MBind M := λ A B f m s,
  match m s with
  | (s', Return a) => f a s'
  | (s', Raise e) => (s', Raise e)
  end.

Definition raise {A} (e : HTTPException) : M A := λ s, (s, Raise e).

Definition record (ev : Event) (s : Session) : Session :=
  mkSession (rows s) (current_user s) (deleted s) (log s ++ [ev]).

(** Reading the object bound to the parameter [current_user]. *)
Definition the_user : M User := λ s, (s, Return (current_user s)).

(** [db.query(User).filter(User.<a> == v).first()] on a table.  The handlers
    only query a column before they assign to it, so a query never has a
    pending change to its own column to take into account. *)
Definition first (a : Attr) (v : option string) (t : gmap nat User)
  : option User :=
  head (map_to_list (filter (λ kv, getattr a kv.2 = v) t)).*2.

Definition query_first (a : Attr) (v : option string) : M (option User) :=
  λ s, (record (EvQuery a v) s, Return (first a v (rows s))).

(** [db.query(User).filter(P).count()]; [db.query(User).count()] is the
    instance with [P] always true. *)
Definition count (P : User → Prop) `{∀ u, Decision (P u)} : M nat :=
  λ s, (s, Return (size (filter (λ kv, P kv.2) (rows s)))).

(** [db.query(User).all()], in no particular order. *)
Definition all : M (list User) :=
  λ s, (s, Return (map_to_list (rows s)).*2).

(** [current_user.<a> = v]. *)
Definition assign (a : Attr) (v : option string) : M () :=
  λ s, (mkSession (rows s) (setattr a v (current_user s)) (deleted s)
                  (log s ++ [EvSet a v]),
        Return ()).

(** [db.delete(current_user)]. *)
Definition delete_user : M () :=
  λ s, (mkSession (rows s) (current_user s) true (log s ++ [EvDelete]),
        Return ()).

(** [db.commit()]: the pending deletion or the pending attribute values of
    [current_user] reach the table. *)
Definition commit : M () :=
  λ s, (mkSession
          (if deleted s then delete (id (current_user s)) (rows s)
           else <[id (current_user s) := current_user s]> (rows s))
          (current_user s) (deleted s) (log s ++ [EvCommit]),
        Return ()).

(** [db.refresh(current_user)]: the object is reloaded from its row. *)
Definition refresh : M () :=
  λ s, (mkSession (rows s)
          (default (current_user s) (rows s !! id (current_user s)))
          (deleted s) (log s ++ [EvRefresh]),
        Return ()).

(** [Depends(guard)] on the parameter [current_user]. *)
Definition depends (guard : User → Result User) : M User :=
  λ s, (s, guard (current_user s)).

(** A fresh session for one request of the resolved identity [u]. *)
Definition open_session (t : gmap nat User) (u : User) : Session :=
  mkSession t u false [].

End orm.

(** ** app.routes.users *)

Module users.
Import models orm.

Definition get_user_profile : M User := the_user.

Definition update_user_profile (user_update : schemas.UserUpdate) : M User :=
  current_user ← the_user;
  (if truthy (schemas.email user_update)
      && bool_decide (schemas.email user_update ≠ email current_user)
   then
     existing_user ← query_first attr_email (schemas.email user_update);
     match existing_user with
     | Some _ =>
         raise (mkHTTPException status.HTTP_400_BAD_REQUEST
                  "Email already registered")
     | None => assign attr_email (schemas.email user_update)
     end
   else mret ());;
  current_user ← the_user;
  (if truthy (schemas.username user_update)
      && bool_decide (schemas.username user_update ≠ username current_user)
   then
     existing_username ←
       query_first attr_username (schemas.username user_update);
     match existing_username with
     | Some _ =>
         raise (mkHTTPException status.HTTP_400_BAD_REQUEST
                  "Username already taken")
     | None => assign attr_username (schemas.username user_update)
     end
   else mret ());;
  (if bool_decide (schemas.full_name user_update ≠ None)
   then assign attr_full_name (schemas.full_name user_update)
   else mret ());;
  commit;;
  refresh;;
  the_user.

(** The handler returns [None]. *)
Definition delete_user_account : M () :=
  delete_user;;
  commit;;
  mret ().

(** [@router.delete("/me", status_code=status.HTTP_204_NO_CONTENT)]. *)
Definition delete_user_account_status_code : nat :=
  status.HTTP_204_NO_CONTENT.

(** The two exceptions [update_user_profile] raises, by name. *)
Definition Email_already_registered : HTTPException :=
  mkHTTPException status.HTTP_400_BAD_REQUEST "Email already registered".

Definition Username_already_taken : HTTPException :=
  mkHTTPException status.HTTP_400_BAD_REQUEST "Username already taken".

Definition list_all_users : M (list User) :=
  _ ← depends deps.require_admin;
  all.

Record Stats := mkStats {
  total_users : nat;
  active_users : nat;
  verified_users : nat;
  admin_users : nat
}.

Definition get_admin_stats : M Stats :=
  _ ← depends deps.require_admin;
  total_users ← count (λ _, True);
  active_users ← count (λ u, is_active u = true);
  verified_users ← count (λ u, is_verified u = true);
  admin_users ← count (λ u, role u = ADMIN);
  mret (mkStats total_users active_users verified_users admin_users).

End users.

(** ** The two-user directory of the worked scenario *)

Module example.
Import models.

Definition alice : User :=
  mkUser 1 (Some "a@x.com") (Some "alice") (Some "Alice") (Some "hash-a")
         USER true true.

Definition bob : User :=
  mkUser 2 (Some "b@x.com") (Some "bob") None (Some "hash-b")
         ADMIN true false.

Definition directory : gmap nat User := <[1 := alice]> (<[2 := bob]> ∅).

End example.

(** ** Table constraints *)

Module constraints.
Import models.

(** Modelled from the spec: the column declarations of [User] are not among
    the sources; the spec's data model makes email and username unique
    across the table.  As in SQL, rows whose column is NULL do not
    collide. *)
Definition unique (a : Attr) (t : gmap nat User) : Prop :=
  ∀ k1 k2 v1 v2,
    t !! k1 = Some v1 → t !! k2 = Some v2 →
    getattr a v1 = getattr a v2 → is_Some (getattr a v1) → k1 = k2.

End constraints.

(** ** .cursor/diagnostics/run_audit.py

    Each check prints a report as it goes and returns a value.  The
    embedding is of the returned values; of the printing it keeps only what
    can change the returned value, namely that formatting a null email
    with a width raises.  The database is a table, or [None] when it cannot
    be reached and every query raises. *)

Module run_audit.
Import models.

(** The attributes of [settings] (app/core/config.py, not among the
    sources) that the script reads.  A setting is a string or [None]. *)
Record Settings := mkSettings {
  DATABASE_URL : option string;
  JWT_SECRET_KEY : option string;
  GOOGLE_CLIENT_ID : option string;
  GOOGLE_CLIENT_SECRET : option string;
  DISCORD_CLIENT_ID : option string;
  DISCORD_CLIENT_SECRET : option string;
  TWITTER_CLIENT_ID : option string;
  TWITTER_CLIENT_SECRET : option string;
  ADMIN_EMAIL : option string;
  ADMIN_PASSWORD : option string;
  FRONTEND_URL : option string;
  BACKEND_URL : option string
}.

(** A Python dict with string keys, as the list of its items in insertion
    order. *)
Definition Dict (V : Type) : Type := list (string * V).

(** [d.get(key, default)]. *)
Definition get {V} (d : Dict V) (key : string) (default : V) : V :=
  match list_find (λ kv, kv.1 = key) d with
  | Some (_, (_, v)) => v
  | None => default
  end.

(** [sum(1 for v in d.values() if v)]. *)
Definition count_true (d : Dict bool) : nat :=
  length (filter (λ kv, kv.2 = true) d).

Definition required_vars (settings : Settings) : Dict (option string) :=
  [ ("DATABASE_URL", DATABASE_URL settings);
    ("JWT_SECRET_KEY", JWT_SECRET_KEY settings);
    ("GOOGLE_CLIENT_ID", GOOGLE_CLIENT_ID settings);
    ("GOOGLE_CLIENT_SECRET", GOOGLE_CLIENT_SECRET settings);
    ("DISCORD_CLIENT_ID", DISCORD_CLIENT_ID settings);
    ("DISCORD_CLIENT_SECRET", DISCORD_CLIENT_SECRET settings);
    ("TWITTER_CLIENT_ID", TWITTER_CLIENT_ID settings);
    ("TWITTER_CLIENT_SECRET", TWITTER_CLIENT_SECRET settings);
    ("ADMIN_EMAIL", ADMIN_EMAIL settings);
    ("ADMIN_PASSWORD", ADMIN_PASSWORD settings);
    ("FRONTEND_URL", FRONTEND_URL settings);
    ("BACKEND_URL", BACKEND_URL settings) ].

Definition check_env_variables (settings : Settings) : Dict bool :=
  (λ kv : string * option string,
     (kv.1, if truthy kv.2 then true else false)) <$> required_vars settings.

(** The dict [check_admin_user] returns beside [True]; beside [False] it
    returns the empty dict, here [None]. *)
Record AdminInfo := mkAdminInfo {
  admin_email : option string;
  admin_role : string;
  admin_is_verified : bool;
  admin_is_active : bool
}.

(** [db.query(User).filter(P).first()]. *)
Definition first_where (P : User → Prop) `{∀ u, Decision (P u)}
    (t : gmap nat User) : option User :=
  head (map_to_list (filter (λ kv, P kv.2) t)).*2.

Definition check_admin_user (settings : Settings)
    (db : option (gmap nat User)) : bool * option AdminInfo :=
  match db with
  | None => (false, None)
  | Some t =>
      if negb (truthy (ADMIN_EMAIL settings)) then (false, None)
      else
        match first_where
                (λ u, email u = ADMIN_EMAIL settings ∧ role u = ADMIN) t with
        | Some admin_user =>
            (true,
             Some (mkAdminInfo (email admin_user) (value (role admin_user))
                     (is_verified admin_user) (is_active admin_user)))
        | None => (false, None)
        end
  end.

(** One dict of the list [check_all_users] returns. *)
Record UserEntry := mkUserEntry {
  entry_email : option string;
  entry_role : string;
  entry_is_verified : bool;
  entry_is_active : bool;
  entry_auth_type : string
}.

(** The body of [for user in users]: the row is printed, with
    [user.email] padded to a width, which raises [TypeError] for a null
    email, and then appended. *)
Fixpoint for_user_in (users : list User) (user_list : list UserEntry)
  : option (list UserEntry) :=
  match users with
  | [] => Some user_list
  | user :: rest =>
      let auth_type :=
        if negb (truthy (hashed_password user)) then "OAuth"
        else "Password" in
      match email user with
      | None => None
      | Some _ =>
          for_user_in rest
            (user_list ++
             [mkUserEntry (email user) (value (role user))
                (is_verified user) (is_active user) auth_type])
      end
  end.

(** The dict the loop appends for a row. *)
Definition entry_of (user : User) : UserEntry :=
  mkUserEntry (email user) (value (role user)) (is_verified user)
    (is_active user)
    (if negb (truthy (hashed_password user)) then "OAuth" else "Password").

Definition check_all_users (db : option (gmap nat User)) : list UserEntry :=
  match db with
  | None => []
  | Some t =>
      let users := (map_to_list t).*2 in
      if bool_decide (users = []) then []
      else
        match for_user_in users [] with
        | Some user_list => user_list
        | None => []
        end
  end.

(** [OAuthService.get_oauth_authorization_url] (app/services, not among the
    sources) is a parameter: a provider's URL, or [None]. *)
Definition check_oauth_configuration
    (get_oauth_authorization_url : string → option string) : Dict bool :=
  (λ provider : string,
     (provider,
      if truthy (get_oauth_authorization_url provider) then true else false))
  <$> ["google"; "discord"; "twitter"].

(** The JSON report, section by section. *)
Record EnvironmentVariables := mkEnvironmentVariables {
  env_status : string;
  env_total : nat;
  env_set : nat;
  env_missing : list string
}.

Record DatabaseConnection := mkDatabaseConnection {
  db_status : string;
  db_message : string
}.

Record AdminUser := mkAdminUser {
  au_status : string;
  au_exists : bool;
  au_email : option string;
  au_role : string;
  au_is_verified : bool;
  au_is_active : bool
}.

Record OAuthConfiguration := mkOAuthConfiguration {
  oauth_status : string;
  oauth_google : bool;
  oauth_discord : bool;
  oauth_twitter : bool
}.

Record UsersSummary := mkUsersSummary {
  us_total : nat;
  us_admin_count : nat;
  us_regular_count : nat;
  us_verified_count : nat;
  us_unverified_count : nat
}.

Record Report := mkReport {
  environment_variables : EnvironmentVariables;
  database_connection : DatabaseConnection;
  admin_user : AdminUser;
  oauth_configuration : OAuthConfiguration;
  users_summary : UsersSummary;
  overall_status : string
}.

(** [settings] is a global of the script; [admin_info.get("email", ...)]
    falls back on its ADMIN_EMAIL. *)
Definition generate_summary (settings : Settings)
    (env_results : Dict bool) (db_connected admin_exists : bool)
    (oauth_results : Dict bool) (users : list UserEntry)
    (admin_info : option AdminInfo) : Report :=
  let env_ok := count_true env_results in
  let env_total := length env_results in
  let oauth_ok := count_true oauth_results in
  let oauth_total := length oauth_results in
  let admin_count :=
    length (filter (λ u, entry_role u = "admin") users) in
  let regular_count :=
    length (filter (λ u, entry_role u = "user") users) in
  let verified_count :=
    length (filter (λ u, entry_is_verified u = true) users) in
  let unverified_count := length users - verified_count in
  let overall_status :=
    if db_connected && admin_exists && bool_decide (8 ≤ env_ok)
    then "success"
    else if db_connected && bool_decide (6 ≤ env_ok) then "warning"
    else "error" in
  mkReport
    (mkEnvironmentVariables
       (if bool_decide (env_ok = env_total) then "success"
        else if bool_decide (8 ≤ env_ok) then "warning" else "error")
       env_total env_ok
       ((filter (λ kv, kv.2 ≠ true) env_results).*1))
    (mkDatabaseConnection
       (if db_connected then "success" else "error")
       (if db_connected then "Database connection successful"
        else "Database connection failed"))
    (mkAdminUser
       (if admin_exists then "success" else "error")
       admin_exists
       (match admin_info with
        | Some info => admin_email info
        | None => ADMIN_EMAIL settings
        end)
       (match admin_info with
        | Some info => admin_role info
        | None => ""
        end)
       (match admin_info with
        | Some info => admin_is_verified info
        | None => false
        end)
       (match admin_info with
        | Some info => admin_is_active info
        | None => false
        end))
    (mkOAuthConfiguration
       (if bool_decide (oauth_ok = oauth_total) then "success"
        else if bool_decide (0 < oauth_ok) then "warning" else "error")
       (get oauth_results "google" false)
       (get oauth_results "discord" false)
       (get oauth_results "twitter" false))
    (mkUsersSummary (length users) admin_count regular_count
       verified_count unverified_count)
    overall_status.

End run_audit.

Import models orm.

(** ** Proof automation for handler runs *)

(** Unfolds a handler run on a fresh session down to its branches. *)
Ltac handler :=
  unfold users.update_user_profile, users.delete_user_account, open_session;
  unfold mbind, M_bind, mret, M_ret, the_user, query_first, assign, raise,
    commit, refresh, delete_user, record;
  simpl.

Ltac handler_cases :=
  handler; repeat case_match; intros; simplify_eq/=.

(** An event that is none of the listed ones is not in the list. *)
Ltac no_such_event :=
  rewrite ?not_elem_of_cons; repeat split; solve [done | apply not_elem_of_nil].

(** An event that is in the list. *)
Ltac has_event :=
  solve [repeat first [apply list_elem_of_here | apply list_elem_of_further]].

(** * Properties *)

(** ** Role guards *)

Section guards.

Lemma value_inj (r1 r2 : UserRole) : value r1 = value r2 → r1 = r2.
Proof. by destruct r1, r2. Qed.

Lemma require_role_accepts (r : UserRole) (u : User) :
  role u = r → deps.require_role r u = Return u.
Proof.
  intros Hr. unfold deps.require_role.
  rewrite bool_decide_eq_false_2; [done | by intros []].
Qed.

Lemma require_role_rejects (r : UserRole) (u : User) :
  role u ≠ r →
  deps.require_role r u =
    Raise (mkHTTPException 403 ("Access denied. Required role: " +:+ value r)).
Proof.
  intros Hr. unfold deps.require_role. by rewrite bool_decide_eq_true_2.
Qed.

(** C2.  The guard made by [require_role] for a role [r] hands back the
    identity it was given when that identity has role [r]; otherwise it
    raises an HTTP exception with status 403 (forbidden, not the 401 of an
    unauthenticated caller) whose detail names [r], and names no other
    role. *)
Theorem require_role_guard (r : UserRole) (u : User) :
  (role u = r → deps.require_role r u = Return u) ∧
  (role u ≠ r →
   ∃ e, deps.require_role r u = Raise e ∧
        status_code e = status.HTTP_403_FORBIDDEN ∧
        status_code e ≠ status.HTTP_401_UNAUTHORIZED ∧
        detail e = "Access denied. Required role: " +:+ value r ∧
        ∀ r', detail e = "Access denied. Required role: " +:+ value r' →
              r' = r).
Proof.
  split; [apply require_role_accepts |].
  intros Hr. eexists. split; [by apply require_role_rejects |].
  simpl. repeat split; [done |].
  intros r' Heq. apply value_inj. unfold String.app in Heq.
  by simplify_eq.
Qed.

Lemma require_role_guard_witness :
  deps.require_role ADMIN example.bob = Return example.bob ∧
  ∃ e, deps.require_role ADMIN example.alice = Raise e ∧
       status_code e = 403 ∧ detail e = "Access denied. Required role: admin".
Proof.
  destruct (require_role_guard ADMIN example.bob) as [Hacc _].
  destruct (require_role_guard ADMIN example.alice) as [_ Hrej].
  split; [by apply Hacc |].
  destruct Hrej as (e & He & Hc & _ & Hd & _); [done |].
  exists e. by rewrite Hd.
Defined.

(** C3, as the claim has it, fails: for a caller who is not an admin the two
    guards raise exceptions with different details. *)
Lemma require_admin_differs_from_require_role :
  deps.require_admin example.alice =
    Raise (mkHTTPException 403 "Access denied. Admin role required.") ∧
  deps.require_role ADMIN example.alice =
    Raise (mkHTTPException 403 "Access denied. Required role: admin") ∧
  deps.require_admin example.alice ≠ deps.require_role ADMIN example.alice.
Proof. by repeat split. Qed.

(** C3, amended.  [require_admin] and [require_role ADMIN] accept exactly the
    same identities and return them unchanged; on every other identity both
    raise with status 403, with the details "Access denied. Admin role
    required." and "Access denied. Required role: admin" respectively. *)
Theorem require_admin_vs_require_role (u : User) :
  (deps.require_admin u = Return u ↔ deps.require_role ADMIN u = Return u) ∧
  (role u = ADMIN →
   deps.require_admin u = Return u ∧ deps.require_role ADMIN u = Return u) ∧
  (role u ≠ ADMIN →
   deps.require_admin u =
     Raise (mkHTTPException status.HTTP_403_FORBIDDEN
              "Access denied. Admin role required.") ∧
   deps.require_role ADMIN u =
     Raise (mkHTTPException status.HTTP_403_FORBIDDEN
              "Access denied. Required role: admin")).
Proof.
  unfold deps.require_admin, deps.require_role.
  destruct (decide (role u = ADMIN)) as [Hr | Hr].
  - rewrite !bool_decide_eq_false_2 by (by intros []). naive_solver.
  - rewrite !bool_decide_eq_true_2 by done. naive_solver.
Qed.

Lemma require_admin_vs_require_role_witness :
  (deps.require_admin example.bob = Return example.bob ∧
   deps.require_role ADMIN example.bob = Return example.bob) ∧
  (deps.require_admin example.alice =
     Raise (mkHTTPException 403 "Access denied. Admin role required.") ∧
   deps.require_role ADMIN example.alice =
     Raise (mkHTTPException 403 "Access denied. Required role: admin")).
Proof.
  split.
  - by apply (require_admin_vs_require_role example.bob).
  - by apply (require_admin_vs_require_role example.alice).
Defined.

End guards.

(** ** Queries *)

Section queries.

Lemma first_None a v (t : gmap nat User) :
  first a v t = None ↔ ∀ k u, t !! k = Some u → getattr a u ≠ v.
Proof.
  unfold first. rewrite head_None. split.
  - intros Hnil k u Hk Hv. apply fmap_nil_inv in Hnil.
    apply map_to_list_empty_iff in Hnil.
    by eapply (map_filter_empty_not_lookup _ _ k u) in Hnil.
  - intros Hall. replace (filter _ t) with (∅ : gmap nat User).
    + by rewrite map_to_list_empty.
    + symmetry. apply map_empty_filter. intros k u Hk. simpl. eauto.
Qed.

Lemma first_Some a v (t : gmap nat User) :
  is_Some (first a v t) ↔ ∃ k u, t !! k = Some u ∧ getattr a u = v.
Proof.
  rewrite <- not_eq_None_Some, first_None. split.
  - intros Hn. apply dec_stable. intros Hex. apply Hn. intros k u Hk Hv.
    apply Hex. eauto.
  - intros (k & u & Hk & Hv) Hall. by eapply Hall.
Qed.

End queries.

(** ** Self-update *)

Section self_update.

Implicit Types (upd : schemas.UserUpdate) (t : gmap nat User) (u : User).

(** A run that raises has not committed. *)
Lemma update_raise_rows upd t u s' e :
  users.update_user_profile upd (open_session t u) = (s', Raise e) →
  rows s' = t.
Proof. by handler_cases. Qed.

(** A run that returns has written the identity object to its row and
    returns that object. *)
Lemma update_return_rows upd t u s' u' :
  users.update_user_profile upd (open_session t u) = (s', Return u') →
  rows s' = <[id u := u']> t ∧ current_user s' = u' ∧ id u' = id u.
Proof. handler_cases; by rewrite lookup_insert_eq. Qed.

(** C1, as the claim has it, fails: alice asks for a free email and for
    bob's username.  The email is checked and assigned to her identity
    object before the username is looked up, so when the username conflict
    is raised that object already carries the new email. *)
Lemma update_assigns_email_before_username_check :
  let upd := schemas.mkUserUpdate (Some "c@x.com") (Some "bob") None in
  let r := users.update_user_profile upd
             (open_session example.directory example.alice) in
  first attr_email (Some "c@x.com") example.directory = None ∧
  first attr_username (Some "bob") example.directory = Some example.bob ∧
  r.2 = Raise (mkHTTPException 400 "Username already taken") ∧
  log r.1 = [EvQuery attr_email (Some "c@x.com");
             EvSet attr_email (Some "c@x.com");
             EvQuery attr_username (Some "bob")] ∧
  email (current_user r.1) = Some "c@x.com" ∧
  current_user r.1 ≠ example.alice.
Proof. vm_compute. by repeat split. Qed.

(** C1, amended.  Self-update is atomic on the committed table: a run that
    raises a conflict has evaluated its checks without committing, and
    leaves every row as it was; a run that returns commits once, after all
    its checks and assignments.  (The checks are interleaved with the
    assignments to the identity object: the email is checked and assigned
    before the username is checked.) *)
Theorem update_commits_all_or_nothing upd t u s' r :
  users.update_user_profile upd (open_session t u) = (s', r) →
  (∀ e, r = Raise e →
     (e = users.Email_already_registered ∨ e = users.Username_already_taken) ∧
     rows s' = t ∧ (EvCommit ∉ log s')) ∧
  (∀ u', r = Return u' →
     ∃ evs, log s' = evs ++ [EvCommit; EvRefresh] ∧ (EvCommit ∉ evs) ∧
            (EvRefresh ∉ evs)).
Proof.
  handler_cases; (split; intros ? ?; simplify_eq);
    try (split; [by auto | split; [done | no_such_event]]);
    match goal with
    | |- ∃ evs, ?l = _ ∧ _ =>
        exists (take (length l - 2) l); simpl;
        split; [done | split; no_such_event]
    end.
Qed.

Lemma update_commits_all_or_nothing_witness :
  let upd := schemas.mkUserUpdate (Some "c@x.com") (Some "bob") None in
  let run := users.update_user_profile upd
               (open_session example.directory example.alice) in
  run.2 = Raise users.Username_already_taken ∧
  rows run.1 = example.directory ∧
  EvCommit ∉ log run.1.
Proof.
  intros upd run.
  destruct (update_commits_all_or_nothing
              upd example.directory example.alice run.1 run.2) as [Hraise _].
  - apply surjective_pairing.
  - split; [reflexivity |].
    apply (Hraise users.Username_already_taken). reflexivity.
Defined.

End self_update.

Section email_and_full_name.

Implicit Types (upd : schemas.UserUpdate) (t : gmap nat User) (u : User).

(** C4, as the claim has it, fails in two ways.  Alice asks for a free email
    together with bob's username: no row holds the email, yet the run raises
    the username conflict and her row keeps the old email.  And alice asks
    for the empty string as her email: it differs from her current email and
    no row holds it, yet the run returns her record unchanged. *)
Lemma free_email_is_not_always_applied :
  let run1 := users.update_user_profile
                (schemas.mkUserUpdate (Some "c@x.com") (Some "bob") None)
                (open_session example.directory example.alice) in
  let run2 := users.update_user_profile
                (schemas.mkUserUpdate (Some "") None None)
                (open_session example.directory example.alice) in
  (first attr_email (Some "c@x.com") example.directory = None ∧
   run1.2 = Raise users.Username_already_taken ∧
   rows run1.1 !! 1 = Some example.alice ∧
   email example.alice = Some "a@x.com") ∧
  (first attr_email (Some "") example.directory = None ∧
   email example.alice ≠ Some "" ∧
   run2.2 = Return example.alice ∧
   rows run2.1 !! 1 = Some example.alice).
Proof. vm_compute. by repeat split. Qed.

(** C4, amended.  The caller asks for a new email that is a non-empty string
    and differs from the current one.  If another row holds that email, the
    run raises "Email already registered" having only queried: the identity
    object and the table are as before, whatever else the request carries.
    If no other row holds it, the run does not raise the email conflict, and
    the email is applied exactly when the username step does not raise: when
    the request also asks for a username that a row holds, the run raises
    "Username already taken" and the table is as before; otherwise the run
    returns the caller's record with the new email, and that record is the
    caller's row. *)
Theorem email_change_checked_then_applied upd t u (e : string) s' r :
  t !! id u = Some u →
  schemas.email upd = Some e → e ≠ "" → email u ≠ Some e →
  users.update_user_profile upd (open_session t u) = (s', r) →
  let username_taken :=
    truthy (schemas.username upd) = true ∧
    schemas.username upd ≠ username u ∧
    ∃ k w, t !! k = Some w ∧ username w = schemas.username upd in
  ((∃ k v, k ≠ id u ∧ t !! k = Some v ∧ email v = Some e) →
   r = Raise users.Email_already_registered ∧
   current_user s' = u ∧ rows s' = t ∧
   log s' = [EvQuery attr_email (Some e)]) ∧
  ((∀ k v, k ≠ id u → t !! k = Some v → email v ≠ Some e) →
   r ≠ Raise users.Email_already_registered ∧
   (username_taken →
    r = Raise users.Username_already_taken ∧ rows s' = t) ∧
   (¬ username_taken →
    ∃ u', r = Return u' ∧ email u' = Some e ∧
          rows s' = <[id u := u']> t ∧ rows s' !! id u = Some u')).
Proof.
  intros Hres He Hne Hcur Hrun. simpl. split.
  - intros (k & v & _ & Hk & Hv).
    destruct (proj2 (first_Some attr_email (Some e) t)) as [w Hw]; [eauto |].
    revert Hrun. handler. rewrite He. simpl.
    rewrite !bool_decide_eq_true_2 by congruence. simpl. rewrite Hw.
    by intros [= <- <-].
  - intros Hfree.
    assert (first attr_email (Some e) t = None) as Hnone.
    { apply first_None. intros k v Hk. simpl.
      destruct (decide (k = id u)) as [-> | Hne']; [congruence | eauto]. }
    revert Hrun. handler. rewrite He. simpl.
    rewrite !bool_decide_eq_true_2 by congruence. simpl. rewrite Hnone.
    simpl.
    destruct (truthy (schemas.username upd) && _) eqn:HU; simpl;
      [destruct (first attr_username _ t) as [w |] eqn:HqU; simpl |].
    + intros [= <- <-]. simpl. split; [done |]. split; [done |].
      intros Hfreeu. destruct Hfreeu.
      apply andb_prop in HU as [Ht Hd].
      apply bool_decide_eq_true_1 in Hd. split; [done |]. split; [done |].
      apply (first_Some attr_username). by rewrite HqU.
    + destruct (bool_decide (schemas.full_name upd ≠ None)); simpl;
        intros [= <- <-]; simpl; rewrite lookup_insert_eq; simpl;
        (split; [done |]); (split; [| by eauto]);
        intros (_ & _ & k & w & Hk & Hw);
        by destruct (proj1 (first_None attr_username _ t) HqU k w Hk).
    + destruct (bool_decide (schemas.full_name upd ≠ None)); simpl;
        intros [= <- <-]; simpl; rewrite lookup_insert_eq; simpl;
        (split; [done |]); (split; [| by eauto]);
        intros (Ht & Hd & _);
        (apply andb_false_iff in HU as [HU | HU];
         [congruence | by apply bool_decide_eq_false_1 in HU]).
Qed.

Lemma email_change_checked_then_applied_witness :
  let upd := schemas.mkUserUpdate (Some "c@x.com") (Some "al") None in
  let run := users.update_user_profile upd
               (open_session example.directory example.alice) in
  ∃ u', run.2 = Return u' ∧ email u' = Some "c@x.com" ∧
        rows run.1 = <[1 := u']> example.directory ∧
        rows run.1 !! 1 = Some u'.
Proof.
  intros upd run.
  destruct (email_change_checked_then_applied
              upd example.directory example.alice "c@x.com" run.1 run.2)
    as [_ Hfree]; [reflexivity | reflexivity | done | done
                  | apply surjective_pairing |].
  destruct Hfree as (_ & _ & Happlied).
  - intros k v Hne Hk. unfold example.directory in Hk.
    rewrite !lookup_insert in Hk.
    repeat case_decide; by simplify_eq.
  - apply Happlied. intros (_ & _ & k & w & Hk & Hw).
    unfold example.directory in Hk. rewrite !lookup_insert in Hk.
    repeat case_decide; by simplify_eq.
Defined.

(** C5, as the claim has it, fails: a request whose full_name is an explicit
    null parses to the same update as one that omits the field, and the
    handler leaves alice's full name in place instead of clearing it. *)
Lemma explicit_null_full_name_is_not_applied :
  let upd := schemas.parse schemas.Omitted schemas.Omitted schemas.Null in
  let run := users.update_user_profile upd
               (open_session example.directory example.alice) in
  upd = schemas.parse schemas.Omitted schemas.Omitted schemas.Omitted ∧
  run.2 = Return example.alice ∧
  full_name example.alice = Some "Alice" ∧
  full_name (current_user run.1) ≠ None ∧
  rows run.1 !! 1 = Some example.alice ∧
  log run.1 = [EvCommit; EvRefresh].
Proof. by vm_compute. Qed.

(** C5, amended.  In a run that returns (no conflict was raised), a
    full_name given as a string, the empty string included, is assigned and
    committed, and no query is made for it; a full_name that is null,
    whether omitted or explicitly null (the two read the same), leaves the
    stored value untouched. *)
Theorem full_name_applied_when_given
    (fe fu fn : schemas.Field) t u s' u' :
  users.update_user_profile (schemas.parse fe fu fn) (open_session t u)
    = (s', Return u') →
  match fn with
  | schemas.Given n =>
      full_name u' = Some n ∧ EvSet attr_full_name (Some n) ∈ log s'
  | schemas.Null | schemas.Omitted =>
      full_name u' = full_name u ∧ ∀ v, EvSet attr_full_name v ∉ log s'
  end ∧
  rows s' !! id u = Some u' ∧
  (∀ v, EvQuery attr_full_name v ∉ log s') ∧
  schemas.parse fe fu schemas.Null = schemas.parse fe fu schemas.Omitted.
Proof.
  intros Hrun. split; [| split; [| split; [| done]]].
  - revert Hrun. destruct fn; handler_cases;
      rewrite ?lookup_insert_eq; simpl; (split; [done |]);
      try has_event; intros v; no_such_event.
  - apply update_return_rows in Hrun as (-> & _ & _).
    apply lookup_insert_eq.
  - intros v. revert Hrun. handler_cases; no_such_event.
Qed.

Lemma full_name_applied_when_given_witness :
  let upd := schemas.parse schemas.Omitted schemas.Omitted (schemas.Given "")
  in
  let run := users.update_user_profile upd
               (open_session example.directory example.alice) in
  ∃ u', run.2 = Return u' ∧ full_name u' = Some "" ∧
        rows run.1 !! 1 = Some u'.
Proof.
  intros upd run.
  exists (setattr attr_full_name (Some "") example.alice).
  split; [reflexivity |].
  destruct (full_name_applied_when_given
              schemas.Omitted schemas.Omitted (schemas.Given "")
              example.directory example.alice run.1
              (setattr attr_full_name (Some "") example.alice))
    as ([Hn _] & Hrow & _).
  - by vm_compute.
  - split; [exact Hn | exact Hrow].
Defined.

End email_and_full_name.

Section idempotence_and_frame.

Implicit Types (upd : schemas.UserUpdate) (t : gmap nat User) (u : User).

(** After a run that returns, neither guard of the handler fires again on
    the returned identity, and a given full_name is already in place. *)
Lemma update_return_settled upd t u s' u' :
  users.update_user_profile upd (open_session t u) = (s', Return u') →
  truthy (schemas.email upd)
    && bool_decide (schemas.email upd ≠ email u') = false ∧
  truthy (schemas.username upd)
    && bool_decide (schemas.username upd ≠ username u') = false ∧
  (schemas.full_name upd ≠ None → full_name u' = schemas.full_name upd).
Proof.
  handler_cases; rewrite ?lookup_insert_eq; simpl;
    repeat match goal with
    | H : _ && _ = false |- _ => rewrite H
    | H : bool_decide _ = false |- _ => apply bool_decide_eq_false_1 in H
    end;
    rewrite ?(bool_decide_eq_false_2 (_ ≠ _)) by (intros Hx; by apply Hx);
    rewrite ?andb_false_r; repeat split; try done; by intros [].
Qed.

(** On an identity that the request no longer changes, the handler returns
    that identity and leaves the table as it is. *)
Lemma update_settled upd t v :
  t !! id v = Some v →
  truthy (schemas.email upd)
    && bool_decide (schemas.email upd ≠ email v) = false →
  truthy (schemas.username upd)
    && bool_decide (schemas.username upd ≠ username v) = false →
  (schemas.full_name upd ≠ None → full_name v = schemas.full_name upd) →
  ∃ s2, users.update_user_profile upd (open_session t v) = (s2, Return v) ∧
        rows s2 = t.
Proof.
  intros Hres He Hu Hn. handler. rewrite He. simpl. rewrite Hu. simpl.
  destruct (decide (schemas.full_name upd ≠ None)) as [Hfn | Hfn];
    [rewrite (bool_decide_eq_true_2 _ Hfn)
    | rewrite (bool_decide_eq_false_2 _ Hfn)]; simpl.
  - rewrite <- (Hn Hfn).
    replace (mkUser _ _ _ _ _ _ _ _) with v by (by destruct v).
    rewrite lookup_insert_eq. simpl. eexists. split; [done |].
    simpl. by apply insert_id.
  - rewrite lookup_insert_eq. simpl. eexists. split; [done |].
    simpl. by apply insert_id.
Qed.

(** C7.  Self-update is idempotent: when the same request is submitted
    again by the same identity, re-resolved from the table the first run
    left, the second run has the outcome of the first (so it returns
    whenever the first did, and with the same record) and leaves the table
    as the first run left it. *)
Theorem update_idempotent upd t u s1 r1 u1 :
  t !! id u = Some u →
  users.update_user_profile upd (open_session t u) = (s1, r1) →
  rows s1 !! id u = Some u1 →
  ∃ s2, users.update_user_profile upd (open_session (rows s1) u1) = (s2, r1) ∧
        rows s2 = rows s1.
Proof.
  intros Hres Hrun Hu1. destruct r1 as [u' | e].
  - pose proof (update_return_settled _ _ _ _ _ Hrun) as (He & Hu & Hn).
    apply update_return_rows in Hrun as (Hrows & _ & Hid).
    rewrite Hrows in Hu1. rewrite lookup_insert_eq in Hu1.
    injection Hu1 as <-.
    apply update_settled; try done.
    rewrite Hrows, Hid. apply lookup_insert_eq.
  - pose proof (update_raise_rows _ _ _ _ _ Hrun) as Hrows.
    rewrite Hrows in Hu1 |- *. assert (u1 = u) as -> by congruence.
    by exists s1.
Qed.

Lemma update_idempotent_witness :
  let upd := schemas.mkUserUpdate (Some "c@x.com") (Some "al") (Some "") in
  let run1 := users.update_user_profile upd
                (open_session example.directory example.alice) in
  let alice' := mkUser 1 (Some "c@x.com") (Some "al") (Some "")
                  (Some "hash-a") USER true true in
  run1.2 = Return alice' ∧
  ∃ s2, users.update_user_profile upd (open_session (rows run1.1) alice')
          = (s2, Return alice') ∧
        rows s2 = rows run1.1.
Proof.
  intros upd run1 alice'. split; [by vm_compute |].
  apply (update_idempotent upd example.directory example.alice
           run1.1 (Return alice') alice').
  - reflexivity.
  - by vm_compute.
  - by vm_compute.
Defined.

(** C9.  Whatever a self-update run does, the identity object keeps its id,
    role, is_active, is_verified and hashed_password; a field among email,
    username and full_name that the request omits keeps its value; every
    other row of the table is left alone, and the caller's row is either
    left alone or overwritten with that identity object. *)
Theorem update_frame upd t u s' r :
  users.update_user_profile upd (open_session t u) = (s', r) →
  (id (current_user s') = id u ∧
   role (current_user s') = role u ∧
   is_active (current_user s') = is_active u ∧
   is_verified (current_user s') = is_verified u ∧
   hashed_password (current_user s') = hashed_password u) ∧
  (schemas.email upd = None → email (current_user s') = email u) ∧
  (schemas.username upd = None → username (current_user s') = username u) ∧
  (schemas.full_name upd = None →
   full_name (current_user s') = full_name u) ∧
  (∀ k, k ≠ id u → rows s' !! k = t !! k) ∧
  (rows s' = t ∨ rows s' = <[id u := current_user s']> t).
Proof.
  handler_cases; rewrite ?lookup_insert_eq; simpl;
    repeat match goal with
    | H : truthy ?o && _ = true |- _ =>
        apply andb_true_iff in H as [H _]; destruct o eqn:?; [| done]
    | H : bool_decide (?o ≠ None) = true |- _ =>
        apply bool_decide_eq_true_1 in H; destruct o eqn:?; [| done]
    end;
    (split; [done |]); repeat (split; [done |]);
    first [by left
          | split; [by intros k Hk; rewrite ?lookup_insert_ne | by right]].
Qed.

Lemma update_frame_witness :
  let upd := schemas.mkUserUpdate None (Some "al") None in
  let run := users.update_user_profile upd
               (open_session example.directory example.alice) in
  role (current_user run.1) = USER ∧
  email (current_user run.1) = Some "a@x.com" ∧
  full_name (current_user run.1) = Some "Alice" ∧
  rows run.1 !! 2 = Some example.bob.
Proof.
  intros upd run.
  destruct (update_frame upd example.directory example.alice run.1 run.2)
    as ((_ & Hrole & _) & Hemail & _ & Hname & Hrows & _).
  - apply surjective_pairing.
  - split; [exact Hrole |]. split; [by apply Hemail |].
    split; [by apply Hname |]. by rewrite Hrows.
Defined.

End idempotence_and_frame.

Section guards_of_self_update.

Implicit Types (upd : schemas.UserUpdate) (t : gmap nat User) (u : User).

(** When the email guard is false the request runs as if it carried no
    email, and likewise for the username. *)
Lemma update_email_guard_false upd t u :
  truthy (schemas.email upd)
    && bool_decide (schemas.email upd ≠ email u) = false →
  users.update_user_profile upd (open_session t u) =
  users.update_user_profile
    (schemas.mkUserUpdate None (schemas.username upd) (schemas.full_name upd))
    (open_session t u).
Proof. handler. by intros ->. Qed.

Lemma update_username_guard_false upd t u :
  truthy (schemas.username upd)
    && bool_decide (schemas.username upd ≠ username u) = false →
  users.update_user_profile upd (open_session t u) =
  users.update_user_profile
    (schemas.mkUserUpdate (schemas.email upd) None (schemas.full_name upd))
    (open_session t u).
Proof.
  handler. intros Hu.
  destruct (truthy (schemas.email upd) && _); simpl.
  - destruct (first attr_email _ t); simpl; [done |]. by rewrite Hu.
  - by rewrite Hu.
Qed.

Lemma guard_false_iff (o cur : option string) :
  truthy o && bool_decide (o ≠ cur) = false ↔
  o = None ∨ o = Some "" ∨ o = cur.
Proof.
  rewrite andb_false_iff, bool_decide_eq_false. split.
  - intros [Ht | Hc]; [| right; right; by apply dec_stable].
    destruct o as [s |]; [| by left]. simpl in Ht.
    apply bool_decide_eq_false_1, dec_stable in Ht. subst. by right; left.
  - intros [-> | [-> | ->]]; [by left | by left | right; by intros []].
Qed.

(** C10.  The email check and assignment run only when the supplied email
    is non-empty and differs from the caller's current one, and likewise for
    the username.  A request whose email (username) is the empty string or
    the caller's current value runs exactly as the request without that
    field: it cannot raise that field's conflict, and the field keeps its
    value. *)
Theorem empty_or_current_value_is_omitted upd t u :
  let run := users.update_user_profile upd (open_session t u) in
  (schemas.email upd = Some "" ∨ schemas.email upd = email u →
   run = users.update_user_profile
           (schemas.mkUserUpdate None (schemas.username upd)
              (schemas.full_name upd))
           (open_session t u) ∧
   run.2 ≠ Raise users.Email_already_registered ∧
   email (current_user run.1) = email u) ∧
  (schemas.username upd = Some "" ∨ schemas.username upd = username u →
   run = users.update_user_profile
           (schemas.mkUserUpdate (schemas.email upd) None
              (schemas.full_name upd))
           (open_session t u) ∧
   run.2 ≠ Raise users.Username_already_taken ∧
   username (current_user run.1) = username u) ∧
  (∀ v, EvQuery attr_email v ∈ log run.1 ∨ EvSet attr_email v ∈ log run.1 →
        v = schemas.email upd ∧ truthy (schemas.email upd) = true ∧
        schemas.email upd ≠ email u) ∧
  (∀ v, EvQuery attr_username v ∈ log run.1
        ∨ EvSet attr_username v ∈ log run.1 →
        v = schemas.username upd ∧ truthy (schemas.username upd) = true ∧
        schemas.username upd ≠ username u).
Proof.
  intros run. split; [| split; [| split]].
  - intros Hcase.
    assert (truthy (schemas.email upd)
              && bool_decide (schemas.email upd ≠ email u) = false) as Hg.
    { apply guard_false_iff. tauto. }
    split; [by apply update_email_guard_false |].
    subst run. clear Hcase. revert Hg. handler. intros ->.
    repeat case_match; simplify_eq/=; rewrite ?lookup_insert_eq; by simpl.
  - intros Hcase.
    assert (truthy (schemas.username upd)
              && bool_decide (schemas.username upd ≠ username u) = false)
      as Hg.
    { apply guard_false_iff. tauto. }
    split; [by apply update_username_guard_false |].
    subst run. clear Hcase. revert Hg. handler. intros Hg.
    repeat case_match; simplify_eq/=; rewrite ?lookup_insert_eq;
      simpl; try done; by rewrite Hg in *.
  - intros v. subst run. handler.
    repeat case_match; simplify_eq/=;
      rewrite ?elem_of_cons, ?elem_of_nil;
      repeat match goal with
      | H : _ && _ = true |- _ =>
          apply andb_prop in H; destruct H as [? ?]
      | H : bool_decide _ = true |- _ => apply bool_decide_eq_true_1 in H
      end; intuition (try discriminate); simplify_eq; done.
  - intros v. subst run. handler.
    repeat case_match; simplify_eq/=;
      rewrite ?elem_of_cons, ?elem_of_nil;
      repeat match goal with
      | H : _ && _ = true |- _ =>
          apply andb_prop in H; destruct H as [? ?]
      | H : bool_decide _ = true |- _ => apply bool_decide_eq_true_1 in H
      end; intuition (try discriminate); simplify_eq; done.
Qed.

Lemma empty_or_current_value_is_omitted_witness :
  let run := users.update_user_profile
               (schemas.mkUserUpdate (Some "") (Some "alice") None)
               (open_session example.directory example.alice) in
  (run.2 ≠ Raise users.Email_already_registered ∧
   email (current_user run.1) = Some "a@x.com") ∧
  (run.2 ≠ Raise users.Username_already_taken ∧
   username (current_user run.1) = Some "alice").
Proof.
  intros run.
  destruct (empty_or_current_value_is_omitted
              (schemas.mkUserUpdate (Some "") (Some "alice") None)
              example.directory example.alice) as (He & Hu & _).
  split.
  - apply He. left. reflexivity.
  - apply Hu. right. reflexivity.
Defined.

End guards_of_self_update.

(** ** Self-delete *)

Section self_delete.

(** C8.  Self-delete always returns, with no value (the route answers 204,
    no content); it has removed the caller's row from the table and left
    every other row as it was.  The handler asks for nothing but the
    resolved identity. *)
Theorem delete_user_account_removes_own_row (t : gmap nat User) (u : User) :
  ∃ s', users.delete_user_account (open_session t u) = (s', Return ()) ∧
        rows s' = delete (id u) t ∧
        rows s' !! id u = None ∧
        (∀ k, k ≠ id u → rows s' !! k = t !! k) ∧
        log s' = [EvDelete; EvCommit] ∧
        users.delete_user_account_status_code = 204.
Proof.
  eexists. split; [reflexivity |]. simpl. split; [done |].
  split; [apply lookup_delete_eq |]. split; [| done].
  intros k Hk. by apply lookup_delete_ne.
Qed.

End self_delete.

(** ** Administrative statistics *)

Section statistics.

Lemma count_all (t : gmap nat User) :
  size (filter (λ kv : nat * User, True) t) = size t.
Proof. by rewrite map_filter_id. Qed.

Lemma count_by_role (t : gmap nat User) :
  size (filter (λ kv, role kv.2 = USER) t)
  + size (filter (λ kv, role kv.2 = ADMIN) t) = size t.
Proof.
  rewrite <- (map_filter_union_complement (λ kv, role kv.2 = USER) t) at 3.
  rewrite map_size_disj_union by apply map_disjoint_filter_complement.
  f_equal. f_equal. apply map_filter_ext. intros k v _. simpl.
  destruct (role v); naive_solver.
Qed.

(** C6.  For an admin caller the statistics handler returns four counts:
    all rows, the rows with is_active, the rows with is_verified and the
    rows whose role is ADMIN, each counted on its own over the same table.
    None of the last three exceeds the total, and the number of USER rows
    plus the number of ADMIN rows is the total. *)
Theorem get_admin_stats_counts (t : gmap nat User) (u : User) :
  role u = ADMIN →
  ∃ st n_user,
    users.get_admin_stats (open_session t u) = (open_session t u, Return st) ∧
    count (λ v, role v = USER) (open_session t u)
      = (open_session t u, Return n_user) ∧
    users.total_users st = size t ∧
    users.active_users st = size (filter (λ kv, is_active kv.2 = true) t) ∧
    users.verified_users st
      = size (filter (λ kv, is_verified kv.2 = true) t) ∧
    users.admin_users st = size (filter (λ kv, role kv.2 = ADMIN) t) ∧
    users.admin_users st ≤ users.total_users st ∧
    users.active_users st ≤ users.total_users st ∧
    users.verified_users st ≤ users.total_users st ∧
    n_user + users.admin_users st = users.total_users st.
Proof.
  intros Hr. unfold users.get_admin_stats, depends, deps.require_admin.
  unfold mbind, M_bind, mret, M_ret, count. simpl.
  rewrite Hr, bool_decide_eq_false_2 by (by intros []).
  eexists _, _. split; [reflexivity |]. split; [reflexivity |]. simpl.
  rewrite count_all.
  repeat split; first [apply map_size_filter | apply count_by_role].
Qed.

Lemma get_admin_stats_counts_witness :
  ∃ st, users.get_admin_stats (open_session example.directory example.bob)
          = (open_session example.directory example.bob, Return st) ∧
        users.admin_users st ≤ users.total_users st.
Proof.
  destruct (get_admin_stats_counts example.directory example.bob)
    as (st & n & Hrun & _ & _ & _ & _ & _ & Hle & _).
  - reflexivity.
  - exists st. split; [exact Hrun | exact Hle].
Defined.

(** The worked scenario: two users, both active, one verified, one admin. *)
Example get_admin_stats_scenario :
  (users.get_admin_stats (open_session example.directory example.bob)).2
  = Return (users.mkStats 2 2 1 1).
Proof. by vm_compute. Qed.

(** A caller who is not an admin gets the guard's 403 and no counts. *)
Example get_admin_stats_forbidden :
  (users.get_admin_stats (open_session example.directory example.alice)).2
  = Raise (mkHTTPException 403 "Access denied. Admin role required.").
Proof. by vm_compute. Qed.

End statistics.

(** * Further properties of the routes *)

Section outcome_of_self_update.

Implicit Types (upd : schemas.UserUpdate) (t : gmap nat User) (u : User).

Lemma first_not_None a v (t : gmap nat User) :
  first a v t ≠ None ↔ ∃ k w, t !! k = Some w ∧ getattr a w = v.
Proof. by rewrite not_eq_None_Some, first_Some. Qed.

Lemma guard_true_iff (o cur : option string) :
  truthy o && bool_decide (o ≠ cur) = true ↔ truthy o = true ∧ o ≠ cur.
Proof. by rewrite andb_true_iff, bool_decide_eq_true. Qed.

(** X1.  The decision table of self-update.  The email conflict is raised
    exactly when the request carries a non-empty email that differs from the
    caller's and some row holds it.  The username conflict is raised exactly
    when the email step did not raise and the same holds of the username, so
    that a request that conflicts on both fields reports the email.  In all
    other cases the handler returns. *)
Theorem update_outcome upd t u s' r :
  users.update_user_profile upd (open_session t u) = (s', r) →
  let email_taken :=
    truthy (schemas.email upd) = true ∧ schemas.email upd ≠ email u ∧
    ∃ k w, t !! k = Some w ∧ email w = schemas.email upd in
  let username_taken :=
    truthy (schemas.username upd) = true ∧
    schemas.username upd ≠ username u ∧
    ∃ k w, t !! k = Some w ∧ username w = schemas.username upd in
  (r = Raise users.Email_already_registered ↔ email_taken) ∧
  (r = Raise users.Username_already_taken ↔
   ¬ email_taken ∧ username_taken) ∧
  ((∃ u', r = Return u') ↔ ¬ email_taken ∧ ¬ username_taken).
Proof.
  intros Hrun. revert Hrun. handler.
  unfold users.Email_already_registered, users.Username_already_taken.
  destruct (truthy (schemas.email upd) && _) eqn:HE; simpl;
    [destruct (first attr_email _ t) eqn:HqE; simpl |];
    try (destruct (truthy (schemas.username upd) && _) eqn:HU; simpl;
         [destruct (first attr_username _ t) eqn:HqU; simpl |]);
    try (destruct (bool_decide (schemas.full_name upd ≠ None)); simpl);
    intros Hrun; injection Hrun as <- <-;
    repeat match goal with
    | H : _ && _ = true |- _ => apply guard_true_iff in H
    | H : _ && _ = false |- _ =>
        apply not_true_iff_false in H; rewrite guard_true_iff in H
    | H : first ?a ?v t = Some ?w |- _ =>
        assert (first a v t ≠ None) by (by rewrite H); clear H
    | H : first ?a ?v t = None |- _ =>
        assert (¬ first a v t ≠ None) by (by rewrite H; intros []); clear H
    | H : context [first _ _ t ≠ None] |- _ =>
        rewrite first_not_None in H; simpl in H
    end;
    (split; [| split]); split;
    try (intros [? ?]); try discriminate;
    try (intros _); try (exists u; reflexivity); try tauto;
    eauto.
Qed.

End outcome_of_self_update.

Section outcome_of_self_update_examples.

Lemma update_outcome_witness :
  let upd := schemas.mkUserUpdate (Some "b@x.com") (Some "bob") None in
  let run := users.update_user_profile upd
               (open_session example.directory example.alice) in
  run.2 = Raise users.Email_already_registered.
Proof.
  intros upd run.
  destruct (update_outcome upd example.directory example.alice run.1 run.2)
    as [[_ Hemail] _].
  - apply surjective_pairing.
  - apply Hemail. split; [reflexivity |]. split; [done |].
    exists 2, example.bob. by vm_compute.
Defined.

End outcome_of_self_update_examples.

Section result_of_self_update.

Implicit Types (upd : schemas.UserUpdate) (t : gmap nat User) (u : User).

(** X2.  A self-update that returns has merged the request into the caller's
    record: email and username are the request's when it carries a
    non-empty value and the caller's otherwise, full_name is the request's
    when it is not null, and the other columns are the caller's.  The
    handler returns that record, and it is the caller's row afterwards. *)
Theorem update_returns_merged_record upd t u s' u' :
  users.update_user_profile upd (open_session t u) = (s', Return u') →
  u' = mkUser (id u)
         (if truthy (schemas.email upd) then schemas.email upd else email u)
         (if truthy (schemas.username upd) then schemas.username upd
          else username u)
         (match schemas.full_name upd with
          | Some n => Some n
          | None => full_name u
          end)
         (hashed_password u) (role u) (is_active u) (is_verified u) ∧
  rows s' = <[id u := u']> t.
Proof.
  handler_cases; rewrite ?lookup_insert_eq; simpl;
    repeat match goal with
    | H : _ && _ = true |- _ => apply andb_prop in H; destruct H
    | H : _ && _ = false |- _ => apply andb_false_iff in H; destruct H
    | H : bool_decide (_ ≠ _) = true |- _ => apply bool_decide_eq_true_1 in H
    | H : bool_decide (_ ≠ _) = false |- _ =>
        apply bool_decide_eq_false_1, dec_stable in H
    | H : truthy _ = _ |- _ => rewrite H; clear H
    end;
    destruct (schemas.full_name upd) eqn:?; try done;
    repeat match goal with
    | |- context [truthy ?o] => destruct (truthy o)
    end;
    (split; [destruct u; simpl in *; congruence | done]).
Qed.

Lemma update_returns_merged_record_witness :
  let upd := schemas.mkUserUpdate (Some "c@x.com") (Some "") (Some "") in
  let run := users.update_user_profile upd
               (open_session example.directory example.alice) in
  let alice' := mkUser 1 (Some "c@x.com") (Some "alice") (Some "")
                  (Some "hash-a") USER true true in
  run.2 = Return alice' ∧ rows run.1 = <[1 := alice']> example.directory.
Proof.
  intros upd run alice'.
  assert (run = (run.1, Return alice')) as Hrun by (by vm_compute).
  split; [by rewrite Hrun |].
  by destruct (update_returns_merged_record
                 upd example.directory example.alice run.1 alice' Hrun)
    as [_ ->].
Defined.

End result_of_self_update.

(** ** Invariants of self-update *)

Section invariants_of_self_update.

Implicit Types (upd : schemas.UserUpdate) (t : gmap nat User) (u : User).

(** Overwriting a row keeps a column unique when the new row keeps the
    column's value or takes one that no row holds. *)
Lemma unique_insert a t u u' :
  constraints.unique a t →
  t !! id u = Some u →
  getattr a u' = getattr a u
  ∨ (∀ k w, t !! k = Some w → getattr a w ≠ getattr a u') →
  constraints.unique a (<[id u := u']> t).
Proof.
  intros Huniq Hres Hnew k1 k2 v1 v2 H1 H2 Heq Hsome.
  destruct (decide (k1 = k2)) as [| Hne]; [done | exfalso].
  rewrite lookup_insert in H1, H2.
  destruct (decide (id u = k1)) as [<- | Hk1];
    destruct (decide (id u = k2)) as [<- | Hk2]; simplify_eq.
  - destruct Hnew as [Hsame | Hfresh].
    + apply Hne, (Huniq (id u) k2 u v2); congruence.
    + by apply (Hfresh k2 v2).
  - destruct Hnew as [Hsame | Hfresh].
    + apply Hne, (Huniq k1 (id u) v1 u); congruence.
    + by apply (Hfresh k1 v1).
  - by apply Hne, (Huniq k1 k2 v1 v2).
Qed.

(** What a returning run has done to a unique column. *)
Lemma update_return_column a upd t u s' u' :
  a ≠ attr_full_name →
  users.update_user_profile upd (open_session t u) = (s', Return u') →
  getattr a u' = getattr a u
  ∨ (∀ k w, t !! k = Some w → getattr a w ≠ getattr a u').
Proof.
  intros Ha. destruct a; [| | done];
    handler_cases; rewrite ?lookup_insert_eq; simpl; auto;
    right;
    first [by apply (first_None attr_email)
          | by apply (first_None attr_username)].
Qed.

(** X3.  Self-update keeps email and username unique: if no two rows of the
    table share an email (a username) before a request of a resolved
    identity, none do after it, whether the request returned or raised. *)
Theorem update_preserves_unique a upd t u s' r :
  a ≠ attr_full_name →
  t !! id u = Some u →
  constraints.unique a t →
  users.update_user_profile upd (open_session t u) = (s', r) →
  constraints.unique a (rows s').
Proof.
  intros Ha Hres Huniq Hrun. destruct r as [u' | e].
  - pose proof (update_return_column a _ _ _ _ _ Ha Hrun) as Hcol.
    apply update_return_rows in Hrun as (-> & _ & _).
    by apply unique_insert.
  - by rewrite (update_raise_rows _ _ _ _ _ Hrun).
Qed.

Lemma directory_unique a : constraints.unique a example.directory.
Proof.
  intros k1 k2 v1 v2 H1 H2 Heq Hsome. unfold example.directory in *.
  rewrite !lookup_insert in H1, H2.
  repeat case_decide; simplify_eq; try done; by destruct a.
Qed.

Lemma update_preserves_unique_witness :
  let upd := schemas.mkUserUpdate (Some "c@x.com") (Some "al") None in
  let run := users.update_user_profile upd
               (open_session example.directory example.alice) in
  constraints.unique attr_email (rows run.1) ∧
  constraints.unique attr_username (rows run.1).
Proof.
  intros upd run. split.
  - apply (update_preserves_unique attr_email upd example.directory
             example.alice run.1 run.2);
      [done | reflexivity | apply directory_unique
      | apply surjective_pairing].
  - apply (update_preserves_unique attr_username upd example.directory
             example.alice run.1 run.2);
      [done | reflexivity | apply directory_unique
      | apply surjective_pairing].
Defined.

(** Overwriting a row with one that a predicate does not tell apart leaves
    the count of that predicate as it was. *)
Lemma count_insert_same (P : nat * User → Prop) `{∀ x, Decision (P x)}
    t u u' :
  t !! id u = Some u → (P (id u, u) ↔ P (id u, u')) →
  size (filter P (<[id u := u']> t)) = size (filter P t).
Proof.
  intros Hres HP. destruct (decide (P (id u, u'))) as [Hu' | Hu'].
  - rewrite map_filter_insert_True by done.
    apply map_size_insert_Some. exists u.
    apply map_lookup_filter_Some. split; [done | tauto].
  - rewrite map_filter_insert_not'; [done | done |].
    intros v Hv. simplify_eq. tauto.
Qed.

(** A returning run leaves the columns that the statistics count alone. *)
Lemma update_return_flags upd t u s' u' :
  users.update_user_profile upd (open_session t u) = (s', Return u') →
  role u' = role u ∧ is_active u' = is_active u
  ∧ is_verified u' = is_verified u.
Proof. handler_cases; by rewrite lookup_insert_eq. Qed.

(** X4.  Self-update never changes the administrative statistics: whoever asks
    for them gets the same answer on the table a self-update of a resolved
    identity leaves as on the table it found. *)
Theorem update_preserves_statistics upd t u s' r (viewer : User) :
  t !! id u = Some u →
  users.update_user_profile upd (open_session t u) = (s', r) →
  (users.get_admin_stats (open_session (rows s') viewer)).2
  = (users.get_admin_stats (open_session t viewer)).2 ∧
  dom (rows s') = dom t.
Proof.
  intros Hres Hrun. destruct r as [u' | e].
  - pose proof (update_return_flags _ _ _ _ _ Hrun) as (Hrole & Hact & Hver).
    apply update_return_rows in Hrun as (-> & _ & _). split.
    + unfold users.get_admin_stats, depends, count.
      unfold mbind, M_bind, mret, M_ret. simpl.
      destruct (deps.require_admin viewer); [| done]. simpl.
      rewrite !count_all, map_size_insert_Some by eauto.
      f_equal. f_equal.
      * apply count_insert_same; [done | simpl; by rewrite Hact].
      * apply count_insert_same; [done | simpl; by rewrite Hver].
      * apply count_insert_same; [done | simpl; by rewrite Hrole].
    + apply dom_insert_lookup_L. by exists u.
  - by rewrite (update_raise_rows _ _ _ _ _ Hrun).
Qed.

Lemma update_preserves_statistics_witness :
  let upd := schemas.mkUserUpdate (Some "c@x.com") (Some "al") (Some "") in
  let run := users.update_user_profile upd
               (open_session example.directory example.alice) in
  (users.get_admin_stats (open_session (rows run.1) example.bob)).2
  = Return (users.mkStats 2 2 1 1).
Proof.
  intros upd run.
  destruct (update_preserves_statistics upd example.directory example.alice
              run.1 run.2 example.bob) as [-> _].
  - reflexivity.
  - apply surjective_pairing.
  - by vm_compute.
Defined.

End invariants_of_self_update.

(** ** Self-delete and the administrative routes *)

Section delete_and_admin_routes.

Implicit Types (t : gmap nat User) (u : User).

(** Removing a row lowers the count of a predicate by one when the row
    satisfies it and leaves it alone otherwise. *)
Lemma count_delete (P : nat * User → Prop) `{∀ x, Decision (P x)} t u :
  t !! id u = Some u →
  size (filter P (delete (id u) t))
  + (if decide (P (id u, u)) then 1 else 0)
  = size (filter P t).
Proof.
  intros Hres. rewrite map_filter_delete.
  destruct (decide (P (id u, u))) as [HP | HP].
  - rewrite <- (insert_delete_id (filter P t) (id u) u) at 2
      by (by apply map_lookup_filter_Some).
    rewrite map_size_insert_None by apply lookup_delete_eq. lia.
  - rewrite delete_id; [lia |]. apply map_lookup_filter_None. right.
    intros v Hv. by simplify_eq.
Qed.

(** X5.  Self-delete of a resolved identity lowers the statistics by exactly
    that identity: the total falls by one, and each of the active, verified
    and admin counts falls by one when the deleted user counted towards it
    and stays otherwise. *)
Theorem delete_user_account_statistics t u (viewer : User) :
  t !! id u = Some u →
  role viewer = ADMIN →
  let t' := rows (users.delete_user_account (open_session t u)).1 in
  ∃ st st',
    (users.get_admin_stats (open_session t viewer)).2 = Return st ∧
    (users.get_admin_stats (open_session t' viewer)).2 = Return st' ∧
    users.total_users st' + 1 = users.total_users st ∧
    users.active_users st' + (if is_active u then 1 else 0)
      = users.active_users st ∧
    users.verified_users st' + (if is_verified u then 1 else 0)
      = users.verified_users st ∧
    users.admin_users st' + (if bool_decide (role u = ADMIN) then 1 else 0)
      = users.admin_users st.
Proof.
  intros Hres Hadmin. simpl.
  unfold users.get_admin_stats, depends, deps.require_admin, count.
  unfold mbind, M_bind, mret, M_ret. simpl.
  rewrite Hadmin, bool_decide_eq_false_2 by (by intros []).
  eexists _, _. split; [reflexivity |]. split; [reflexivity |]. simpl.
  rewrite !count_all. repeat split.
  - rewrite map_size_delete_Some by eauto.
    assert (size t ≠ 0); [| lia].
    intros Hz. apply map_size_empty_iff in Hz. by subst.
  - rewrite <- (count_delete (λ kv, is_active kv.2 = true) t u Hres).
    simpl. by destruct (is_active u).
  - rewrite <- (count_delete (λ kv, is_verified kv.2 = true) t u Hres).
    simpl. by destruct (is_verified u).
  - rewrite <- (count_delete (λ kv, role kv.2 = ADMIN) t u Hres).
    simpl. by destruct (role u).
Qed.

Lemma delete_user_account_statistics_witness :
  let t' := rows (users.delete_user_account
                    (open_session example.directory example.alice)).1 in
  (users.get_admin_stats (open_session t' example.bob)).2
  = Return (users.mkStats 1 1 0 1).
Proof.
  intros t'.
  destruct (delete_user_account_statistics example.directory example.alice
              example.bob)
    as (st & st' & Hst & Hst' & Htot & Hact & Hver & Hadm);
    [reflexivity | reflexivity |].
  fold t' in Hst'. rewrite Hst'.
  assert (st = users.mkStats 2 2 1 1) as ->.
  { assert (Return st = Return (users.mkStats 2 2 1 1)) as [= ->];
      [by rewrite <- Hst | done]. }
  destruct st' as [a b c d]. simpl in *. do 2 f_equal; lia.
Defined.

(** X6.  A deleted account frees its email.  While a user holds an email, another
    user's request for it raises the email conflict; once the holder has
    deleted the account, the same request returns with that email. *)
Theorem delete_user_account_frees_email t u (v : User) (e : string) :
  constraints.unique attr_email t →
  t !! id u = Some u → t !! id v = Some v → id v ≠ id u →
  email u = Some e → e ≠ "" →
  let upd := schemas.mkUserUpdate (Some e) None None in
  let t' := rows (users.delete_user_account (open_session t u)).1 in
  (users.update_user_profile upd (open_session t v)).2
    = Raise users.Email_already_registered ∧
  (users.update_user_profile upd (open_session t' v)).2
    = Return (setattr attr_email (Some e) v).
Proof.
  intros Huniq Hu Hv Hne He Hnonempty upd t'.
  assert (Some e ≠ email v) as Hev.
  { intros Heq. apply Hne, (Huniq (id v) (id u) v u); simpl; [done.. | |].
    - congruence.
    - rewrite <- Heq. eauto. }
  split.
  - destruct (proj2 (first_Some attr_email (Some e) t)) as [w Hw];
      [by exists (id u), u |].
    handler. rewrite (bool_decide_eq_true_2 (e ≠ "")) by done.
    rewrite (bool_decide_eq_true_2 (Some e ≠ email v)) by done. simpl.
    by rewrite Hw.
  - assert (first attr_email (Some e) t' = None) as Hfree.
    { apply first_None. intros k w Hk Hw. subst t'. simpl in Hk, Hw.
      apply lookup_delete_Some in Hk as [Hku Hk].
      apply Hku. symmetry. apply (Huniq k (id u) w u); simpl; [done.. | |].
      - congruence.
      - rewrite Hw. eauto. }
    handler. rewrite (bool_decide_eq_true_2 (e ≠ "")) by done.
    rewrite (bool_decide_eq_true_2 (Some e ≠ email v)) by done. simpl.
    fold t'. rewrite Hfree. simpl. by rewrite lookup_insert_eq.
Qed.

Lemma delete_user_account_frees_email_witness :
  let upd := schemas.mkUserUpdate (Some "a@x.com") None None in
  let t' := rows (users.delete_user_account
                    (open_session example.directory example.alice)).1 in
  (users.update_user_profile upd
     (open_session example.directory example.bob)).2
    = Raise users.Email_already_registered ∧
  (users.update_user_profile upd (open_session t' example.bob)).2
    = Return (setattr attr_email (Some "a@x.com") example.bob).
Proof.
  apply (delete_user_account_frees_email example.directory example.alice
           example.bob "a@x.com");
    [apply directory_unique | reflexivity | reflexivity | done
    | reflexivity | done].
Defined.

(** X7.  For an admin the listing returns every row of the table and nothing
    else, once per row, without touching the session; its length is the
    total the statistics route reports. *)
Theorem list_all_users_returns_every_row t (a : User) :
  role a = ADMIN →
  ∃ l st,
    users.list_all_users (open_session t a) = (open_session t a, Return l) ∧
    (∀ x, x ∈ l ↔ ∃ k, t !! k = Some x) ∧
    length l = size t ∧
    (users.get_admin_stats (open_session t a)).2 = Return st ∧
    users.total_users st = length l.
Proof.
  intros Hadmin.
  unfold users.list_all_users, users.get_admin_stats, depends,
    deps.require_admin, all, count.
  unfold mbind, M_bind, mret, M_ret. simpl.
  rewrite Hadmin, bool_decide_eq_false_2 by (by intros []).
  eexists _, _. split; [reflexivity |]. simpl.
  split; [| split; [| split; [reflexivity |]]].
  - intros x. rewrite list_elem_of_fmap. split.
    + intros ([k w] & -> & Hin). exists k. by apply elem_of_map_to_list.
    + intros [k Hk]. exists (k, x). split; [done |].
      by apply elem_of_map_to_list.
  - by rewrite length_fmap, length_map_to_list.
  - simpl. by rewrite count_all, length_fmap, length_map_to_list.
Qed.

Lemma list_all_users_returns_every_row_witness :
  ∃ l, (users.list_all_users
          (open_session example.directory example.bob)).2 = Return l ∧
       length l = 2 ∧ example.alice ∈ l ∧ example.bob ∈ l.
Proof.
  destruct (list_all_users_returns_every_row example.directory example.bob)
    as (l & st & Hrun & Hin & Hlen & _); [reflexivity |].
  exists l. split; [by rewrite Hrun |]. split; [by rewrite Hlen |].
  split; apply Hin; [by exists 1 | by exists 2].
Defined.

(** X8.  Neither administrative route tells a caller who is not an admin
    anything: whatever the table holds, both raise the 403 of
    [require_admin], return no row and no count, and leave the session as
    it was. *)
Theorem admin_routes_reject_non_admin t (a : User) :
  role a ≠ ADMIN →
  users.list_all_users (open_session t a)
    = (open_session t a,
       Raise (mkHTTPException status.HTTP_403_FORBIDDEN
                "Access denied. Admin role required.")) ∧
  users.get_admin_stats (open_session t a)
    = (open_session t a,
       Raise (mkHTTPException status.HTTP_403_FORBIDDEN
                "Access denied. Admin role required.")).
Proof.
  intros Hrole.
  unfold users.list_all_users, users.get_admin_stats, depends,
    deps.require_admin.
  unfold mbind, M_bind. simpl. by rewrite bool_decide_eq_true_2.
Qed.

Lemma admin_routes_reject_non_admin_witness :
  (users.list_all_users (open_session example.directory example.alice)).2
    = Raise (mkHTTPException 403 "Access denied. Admin role required.") ∧
  (users.get_admin_stats (open_session example.directory example.alice)).2
    = Raise (mkHTTPException 403 "Access denied. Admin role required.").
Proof.
  destruct (admin_routes_reject_non_admin example.directory example.alice)
    as [-> ->]; done.
Defined.

End delete_and_admin_routes.

(** * The diagnostic script *)

Section audit_lists.

(** The entries a predicate keeps and the ones it drops make up the list. *)
Lemma length_filter_split {A} (P : A → Prop) `{∀ x, Decision (P x)}
    (l : list A) :
  length (filter P l) + length (filter (λ x, ¬ P x) l) = length l.
Proof.
  induction l as [| x l IH]; [done |].
  rewrite !filter_cons. destruct (decide (P x)).
  - rewrite decide_False by tauto. simpl. lia.
  - rewrite decide_True by done. simpl. lia.
Qed.

Lemma length_filter_le {A} (P : A → Prop) `{∀ x, Decision (P x)}
    (l : list A) :
  length (filter P l) ≤ length l.
Proof. pose proof (length_filter_split P l). lia. Qed.

(** Counting, in the list of a table's rows seen through [f], the entries
    that satisfy [Q] gives the number of rows of the table that satisfy the
    corresponding predicate [R]. *)
Lemma length_filter_rows {B} (f : User → B) (Q : B → Prop)
    (R : nat * User → Prop) `{∀ b, Decision (Q b)} `{∀ kv, Decision (R kv)}
    (t : gmap nat User) :
  (∀ kv, Q (f kv.2) ↔ R kv) →
  length (filter Q (f <$> (map_to_list t).*2)) = size (filter R t).
Proof.
  intros HQR.
  induction t as [| k u t Hk Hfirst IH] using map_first_key_ind.
  - by rewrite map_filter_empty, map_to_list_empty, map_size_empty.
  - rewrite map_to_list_insert_first_key by done.
    rewrite !fmap_cons, filter_cons. simpl.
    destruct (decide (R (k, u))) as [HR | HR].
    + rewrite decide_True by (by apply (HQR (k, u))).
      rewrite map_filter_insert_True by done.
      rewrite map_size_insert_None
        by (apply map_lookup_filter_None; by left).
      simpl. by rewrite IH.
    + rewrite decide_False by (by rewrite (HQR (k, u))).
      rewrite map_filter_insert_not' by (done || by rewrite Hk).
      done.
Qed.

End audit_lists.

Section audit_report.

Import run_audit.

Implicit Types (settings : Settings) (users : list UserEntry).

Lemma count_true_missing (d : Dict bool) :
  count_true d + length ((filter (λ kv, kv.2 ≠ true) d).*1) = length d.
Proof.
  unfold count_true. rewrite length_fmap.
  apply (length_filter_split (λ kv : string * bool, kv.2 = true)).
Qed.

(** X9.  The environment section of the report of a run.  The script checks
    twelve settings; the ones it counts as set and the ones it lists as
    missing add up to twelve; a setting is listed as missing exactly when it
    is [None] or empty; and the section's status is "success" exactly when
    nothing is missing. *)
Theorem environment_section settings db_connected admin_exists
    (oauth_results : Dict bool) users admin_info :
  let env :=
    environment_variables
      (generate_summary settings (check_env_variables settings)
         db_connected admin_exists oauth_results users admin_info) in
  env_total env = 12 ∧
  env_set env + length (env_missing env) = 12 ∧
  (∀ name, name ∈ env_missing env ↔
           ∃ v, (name, v) ∈ required_vars settings ∧ truthy v = false) ∧
  (env_status env = "success" ↔ env_missing env = []).
Proof.
  simpl. pose proof (count_true_missing (check_env_variables settings)) as Hsum.
  assert (length (check_env_variables settings) = 12) as Hlen by done.
  rewrite Hlen in *. split; [done |]. split; [done |]. split.
  - intros name. rewrite list_elem_of_fmap. split.
    + intros ([n b] & -> & Hin). apply list_elem_of_filter in Hin as [Hb Hin].
      unfold check_env_variables in Hin.
      apply list_elem_of_fmap in Hin as ([n' v] & [= -> ->] & Hin).
      exists v. split; [done |]. simpl in Hb. by destruct (truthy v).
    + intros (v & Hin & Hv). exists (name, false). split; [done |].
      apply list_elem_of_filter. split; [done |].
      unfold check_env_variables. apply list_elem_of_fmap.
      exists (name, v). simpl. by rewrite Hv.
  - case_bool_decide as Hok.
    + split; [intros _ | done]. apply nil_length_inv. lia.
    + split.
      * case_bool_decide; discriminate.
      * intros Hnil. rewrite Hnil in Hsum. simpl in Hsum. lia.
Qed.

(** X10.  The overall status looks at the database, the admin user and the
    number of settings that are set, and at nothing else.  It is "success"
    exactly when the database is reachable, the admin exists and at least
    eight settings are set; "error" exactly when the database is unreachable
    or fewer than six are set; "warning" in between.  The OAuth results and
    the users do not enter into it. *)
Theorem overall_status_cases settings (env_results : Dict bool)
    db_connected admin_exists (oauth_results : Dict bool) users admin_info :
  let report :=
    generate_summary settings env_results db_connected admin_exists
      oauth_results users admin_info in
  let env_ok := env_set (environment_variables report) in
  (overall_status report = "success" ↔
   db_connected = true ∧ admin_exists = true ∧ 8 ≤ env_ok) ∧
  (overall_status report = "error" ↔ db_connected = false ∨ env_ok < 6) ∧
  (overall_status report = "warning" ↔
   db_connected = true ∧ 6 ≤ env_ok ∧ ¬ (admin_exists = true ∧ 8 ≤ env_ok)) ∧
  (∀ oauth_results' users',
     overall_status
       (generate_summary settings env_results db_connected admin_exists
          oauth_results' users' admin_info)
     = overall_status report).
Proof.
  simpl. destruct db_connected, admin_exists; simpl;
    repeat case_bool_decide; repeat split;
    try discriminate; try done; try lia;
    intuition (try discriminate; try lia).
Qed.

End audit_report.

Section audit_checks.

Import run_audit.

Implicit Types (settings : Settings) (t : gmap nat User).

Lemma for_user_in_Some (l : list User) (acc : list UserEntry) :
  Forall (λ u, is_Some (email u)) l →
  for_user_in l acc = Some (acc ++ (entry_of <$> l)).
Proof.
  intros Hall. revert acc.
  induction Hall as [| u l [e He] _ IH]; intros acc; simpl.
  - by rewrite app_nil_r.
  - rewrite He. rewrite IH, <- app_assoc. simpl.
    unfold entry_of. by rewrite He.
Qed.

Lemma for_user_in_None (l : list User) (acc : list UserEntry) :
  Exists (λ u, email u = None) l → for_user_in l acc = None.
Proof.
  intros Hex. revert acc.
  induction Hex as [u l Hu | u l _ IH]; intros acc; simpl.
  - by rewrite Hu.
  - destruct (email u); [apply IH | done].
Qed.

Lemma rows_Forall (P : User → Prop) t :
  (∀ k u, t !! k = Some u → P u) → Forall P (map_to_list t).*2.
Proof.
  intros HP. apply Forall_forall. intros u Hu.
  apply list_elem_of_fmap in Hu as ([k v] & -> & Hin).
  apply elem_of_map_to_list in Hin. by apply (HP k).
Qed.

(** When every user has an email, [check_all_users] returns one entry per
    row, built from that row. *)
Lemma check_all_users_entries t :
  (∀ k u, t !! k = Some u → is_Some (email u)) →
  check_all_users (Some t) = entry_of <$> (map_to_list t).*2.
Proof.
  intros Hall. unfold check_all_users. case_bool_decide as Hnil.
  - by rewrite Hnil.
  - by rewrite for_user_in_Some by (by apply rows_Forall).
Qed.

(** X11.  [check_all_users] reports no users in three cases and no other: the
    database cannot be reached, the table is empty, or some user has no
    email.  In the last case the rows that do have one are lost with
    it. *)
Theorem check_all_users_empty_iff (db : option (gmap nat User)) :
  check_all_users db = [] ↔
  db = None ∨ db = Some ∅
  ∨ ∃ t k u, db = Some t ∧ t !! k = Some u ∧ email u = None.
Proof.
  destruct db as [t |]; [| by split; [left |]]. split.
  - intros Hnil.
    destruct (decide (Exists (λ u, email u = None) (map_to_list t).*2))
      as [Hex | Hall].
    + right; right. apply Exists_exists in Hex as (u & Hin & Hu).
      apply list_elem_of_fmap in Hin as ([k v] & -> & Hin).
      apply elem_of_map_to_list in Hin. by exists t, k, v.
    + right; left. f_equal.
      apply map_to_list_empty_iff, (fmap_nil_inv snd).
      apply not_Exists_Forall in Hall; [| solve_decision].
      unfold check_all_users in Hnil. case_bool_decide as Hrows; [done |].
      rewrite for_user_in_Some in Hnil.
      * by apply fmap_nil_inv in Hnil.
      * eapply Forall_impl; [exact Hall |]. intros u Hu. simpl in Hu.
        by apply not_eq_None_Some.
  - intros [[=] | [[= ->] | (t' & k & u & [= <-] & Hk & Hu)]].
    + unfold check_all_users. by rewrite map_to_list_empty.
    + unfold check_all_users. case_bool_decide; [done |].
      rewrite for_user_in_None; [done |].
      apply Exists_exists. exists u. split; [| done].
      apply list_elem_of_fmap. exists (k, u). split; [done |].
      by apply elem_of_map_to_list.
Qed.

(** What the statistics route returns to an admin. *)
Lemma get_admin_stats_admin t (viewer : User) :
  role viewer = ADMIN →
  users.get_admin_stats (open_session t viewer)
  = (open_session t viewer,
     Return (users.mkStats (size t)
               (size (filter (λ kv, is_active kv.2 = true) t))
               (size (filter (λ kv, is_verified kv.2 = true) t))
               (size (filter (λ kv, role kv.2 = ADMIN) t)))).
Proof.
  intros Hadmin. unfold users.get_admin_stats, depends, deps.require_admin.
  unfold mbind, M_bind, mret, M_ret, count. simpl.
  rewrite Hadmin, bool_decide_eq_false_2 by (by intros []).
  by rewrite count_all.
Qed.

(** X12.  The users section of the report agrees with the administrative
    statistics.  On a table whose users all have an email, the report built
    from [check_all_users] counts as many users, admins and verified users
    as [get_admin_stats] does; admins and regular users make up the total, and
    so do verified and unverified users. *)
Theorem users_section_agrees_with_admin_stats settings t (viewer : User)
    (env_results oauth_results : Dict bool) db_connected admin_exists
    admin_info :
  (∀ k u, t !! k = Some u → is_Some (email u)) →
  role viewer = ADMIN →
  let summary :=
    users_summary
      (generate_summary settings env_results db_connected admin_exists
         oauth_results (check_all_users (Some t)) admin_info) in
  ∃ st,
    (users.get_admin_stats (open_session t viewer)).2 = Return st ∧
    us_total summary = users.total_users st ∧
    us_admin_count summary = users.admin_users st ∧
    us_verified_count summary = users.verified_users st ∧
    us_admin_count summary + us_regular_count summary = us_total summary ∧
    us_verified_count summary + us_unverified_count summary
      = us_total summary.
Proof.
  intros Hall Hadmin. cbv zeta.
  rewrite check_all_users_entries by done. simpl.
  rewrite (get_admin_stats_admin t viewer Hadmin).
  eexists. split; [reflexivity |]. simpl.
  pose proof (count_by_role t) as Hroles.
  assert (length (filter (λ e, entry_role e = "admin")
                    (entry_of <$> (map_to_list t).*2))
          = size (filter (λ kv, role kv.2 = ADMIN) t)) as ->.
  { apply length_filter_rows. intros [k u]. simpl. by destruct (role u). }
  assert (length (filter (λ e, entry_role e = "user")
                    (entry_of <$> (map_to_list t).*2))
          = size (filter (λ kv, role kv.2 = USER) t)) as ->.
  { apply length_filter_rows. intros [k u]. simpl. by destruct (role u). }
  assert (length (filter (λ e, entry_is_verified e = true)
                    (entry_of <$> (map_to_list t).*2))
          = size (filter (λ kv, is_verified kv.2 = true) t)) as ->.
  { by apply length_filter_rows. }
  rewrite !length_fmap, length_map_to_list. repeat split; try lia.
  pose proof (map_size_filter (λ kv : nat * User, is_verified kv.2 = true) t).
  lia.
Qed.

Lemma users_section_agrees_with_admin_stats_witness :
  let summary :=
    users_summary
      (generate_summary (mkSettings None None None None None None None None
                           None None None None)
         [] true true [] (check_all_users (Some example.directory)) None) in
  us_total summary = 2 ∧ us_admin_count summary = 1 ∧
  us_verified_count summary = 1.
Proof.
  intros summary.
  destruct (users_section_agrees_with_admin_stats
              (mkSettings None None None None None None None None
                 None None None None)
              example.directory example.bob [] [] true true None)
    as (st & Hst & Htot & Hadm & Hver & _).
  - intros k u Hk. unfold example.directory in Hk.
    rewrite !lookup_insert in Hk.
    repeat case_decide; simplify_eq; by eexists.
  - reflexivity.
  - assert (st = users.mkStats 2 2 1 1) as ->.
    { assert (Return st = Return (users.mkStats 2 2 1 1)) as [= ->];
        [by rewrite <- Hst | done]. }
    fold summary in Htot, Hadm, Hver. by rewrite Htot, Hadm, Hver.
Defined.

End audit_checks.

Section audit_admin_and_oauth.

Import run_audit.

Implicit Types (settings : Settings) (t : gmap nat User).

Lemma first_where_Some (P : User → Prop) `{∀ u, Decision (P u)} t u :
  first_where P t = Some u → P u ∧ ∃ k, t !! k = Some u.
Proof.
  unfold first_where. intros Hhead.
  assert (u ∈ (map_to_list (filter (λ kv, P kv.2) t)).*2) as Hin.
  { destruct ((map_to_list _).*2) as [| x l]; simplify_eq/=.
    apply list_elem_of_here. }
  apply list_elem_of_fmap in Hin as ([k v] & -> & Hin).
  apply elem_of_map_to_list, map_lookup_filter_Some in Hin as [Hk HP].
  split; [done | by exists k].
Qed.

Lemma first_where_None (P : User → Prop) `{∀ u, Decision (P u)} t :
  first_where P t = None → ∀ k u, t !! k = Some u → ¬ P u.
Proof.
  unfold first_where. intros Hhead k u Hk HP.
  apply head_None, fmap_nil_inv, map_to_list_empty_iff in Hhead.
  by eapply (map_filter_empty_not_lookup _ _ k u) in Hhead.
Qed.

(** X13.  [check_admin_user] answers [True] exactly when ADMIN_EMAIL is set, the
    database can be reached and some row has that email and the ADMIN role.
    It returns the empty dict beside [False] and, beside [True], a dict
    whose email is ADMIN_EMAIL and whose role is "admin"; either way the
    admin section of the report carries ADMIN_EMAIL. *)
Theorem check_admin_user_found_iff settings (db : option (gmap nat User))
    (env_results oauth_results : Dict bool) db_connected
    (users : list UserEntry) :
  let r := check_admin_user settings db in
  (r.1 = true ↔
   truthy (ADMIN_EMAIL settings) = true ∧
   ∃ t k u, db = Some t ∧ t !! k = Some u ∧
            email u = ADMIN_EMAIL settings ∧ role u = ADMIN) ∧
  (r.2 = None ↔ r.1 = false) ∧
  (∀ info, r.2 = Some info →
           admin_email info = ADMIN_EMAIL settings ∧
           admin_role info = "admin") ∧
  au_email (admin_user (generate_summary settings env_results db_connected
                          r.1 oauth_results users r.2))
    = ADMIN_EMAIL settings.
Proof.
  unfold check_admin_user. destruct db as [t |]; simpl.
  - destruct (truthy (ADMIN_EMAIL settings)) eqn:Htruthy; simpl.
    + destruct (first_where _ t) as [admin |] eqn:Hfirst; simpl.
      * apply first_where_Some in Hfirst as [[He Hr] [k Hk]].
        rewrite Hr. repeat split; try done; try by simplify_eq.
        by exists t, k, admin.
      * pose proof (first_where_None _ _ Hfirst) as Hnone.
        repeat split; try done.
        intros (_ & t' & k & u & [= <-] & Hk & He & Hr).
        by destruct (Hnone k u Hk).
    + repeat split; try done. by intros [? _].
  - repeat split; try done. by intros (_ & ? & ? & ? & ? & _).
Qed.

(** X14.  The OAuth section of the report of a run: a provider is reported as
    configured exactly when its authorization URL is a non-empty string;
    the section is "success" when all three are, "error" when none is and
    "warning" otherwise. *)
Theorem oauth_section settings
    (get_oauth_authorization_url : string → option string)
    (env_results : Dict bool) db_connected admin_exists
    (users : list UserEntry) admin_info :
  let oauth :=
    oauth_configuration
      (generate_summary settings env_results db_connected admin_exists
         (check_oauth_configuration get_oauth_authorization_url)
         users admin_info) in
  let google := truthy (get_oauth_authorization_url "google") in
  let discord := truthy (get_oauth_authorization_url "discord") in
  let twitter := truthy (get_oauth_authorization_url "twitter") in
  oauth_google oauth = google ∧
  oauth_discord oauth = discord ∧
  oauth_twitter oauth = twitter ∧
  (oauth_status oauth = "success" ↔ google && discord && twitter = true) ∧
  (oauth_status oauth = "error" ↔ google || discord || twitter = false) ∧
  (oauth_status oauth = "warning" ↔
   google || discord || twitter = true ∧
   google && discord && twitter = false).
Proof.
  unfold generate_summary, check_oauth_configuration. simpl.
  destruct (truthy (get_oauth_authorization_url "google")),
    (truthy (get_oauth_authorization_url "discord")),
    (truthy (get_oauth_authorization_url "twitter"));
    vm_compute; repeat split; try done; try discriminate;
    intros [? ?]; discriminate.
Qed.

End audit_admin_and_oauth.
